(** * locator/local_strategy.cc: the local replication strategy

    A shallow embedding of [locator::local_strategy] and of the pieces of
    its environment that the translation unit touches: the process-wide
    broadcast address, the seastar future it returns, the sequenced
    endpoint set, and the class registry its two static registrators
    write to.  The five virtual methods are embedded one definition per
    C++ member function, under the name [local_strategy_<member>]. *)

From stdpp Require Import base option list strings gmap.
From Stdlib Require Import NArith ZArith.

Set Default Proof Using "Type".
Open Scope string_scope.

(** ** Values that cross the interface *)

(** Modelled from the spec: [gms::inet_address] is declared outside this
    file.  An endpoint is "an identifier (network address) for a cluster
    node"; the raw address bits are kept as a natural number. *)
Abbreviation inet_address := N (only parsing).

(** Modelled from the spec: [dht::token] is declared outside this file.  A
    token is "an opaque, totally ordered value from a fixed keyspace"; the
    ring position is kept as an integer. *)
Abbreviation token := Z (only parsing).

(** [replication_strategy_config_options]: option name to option value. *)
Abbreviation replication_strategy_config_options := (gmap string string) (only parsing).

(** [inet_address_vector_replica_set]: a vector of endpoints, in order. *)
Abbreviation inet_address_vector_replica_set := (list N) (only parsing).

(** Modelled from the spec: the error kinds of the strategy contract
    (section 7); the exception classes themselves are declared outside
    this file. *)
Inductive exception : Type :=
| InvalidConfiguration (reason : string)
| UnrecognizedOption (key : string)
| UnknownStrategy (name : string)
| EmptyTopology.

(** A call either returns or throws. *)
Inductive result (A : Type) : Type :=
| returned (a : A)
| thrown (e : exception).
Arguments returned {A} a.
Arguments thrown {A} e.

(** Sequencing of calls: the first exception thrown ends the sequence. *)
#[export] Instance result_ret : MRet result := fun _ a => returned a.
#[export] Instance result_bind : MBind result := fun _ _ k r =>
  match r with
  | returned a => k a
  | thrown e => thrown e
  end.

(** ** seastar futures *)

Module seastar.

(** The three states of a [future<T>]: resolved with a value, resolved
    with an exception, or not yet resolved.  An unresolved strategy
    calculation is waiting for the topology to reach a ring epoch. *)
Inductive future (T : Type) : Type :=
| ready_future (v : T)
| exception_future (e : exception)
| pending_future (barrier : N).
Arguments ready_future {T} v.
Arguments exception_future {T} e.
Arguments pending_future {T} barrier.

Definition make_ready_future {T : Type} (v : T) : future T := ready_future v.

(** [future::available()] *)
Definition available {T : Type} (f : future T) : bool :=
  match f with
  | pending_future _ => false
  | _ => true
  end.

(** [future::failed()] *)
Definition failed {T : Type} (f : future T) : bool :=
  match f with
  | exception_future _ => true
  | _ => false
  end.

(** The barrier an unresolved future is suspended on, if any. *)
Definition awaited_barrier {T : Type} (f : future T) : option N :=
  match f with
  | pending_future b => Some b
  | _ => None
  end.

(** [future::get()] on an available future; nothing to get otherwise. *)
Definition get {T : Type} (f : future T) : option (result T) :=
  match f with
  | ready_future v => Some (returned v)
  | exception_future e => Some (thrown e)
  | pending_future _ => None
  end.

End seastar.
Export seastar.

(** ** utils::fb_utilities *)

(** Modelled from the spec: utils/fb_utilities.hh is only included here.
    It holds "this process's own address", the address of "the node
    performing the calculation", as process-wide state. *)
Record fb_utilities : Type := {
  _broadcast_address : inet_address
}.

Definition get_broadcast_address (fb : fb_utilities) : inet_address :=
  _broadcast_address fb.

(** ** Endpoint sets, topology, effective replication map *)

(** Modelled from the spec: [endpoint_set] is declared outside this file.
    It is "a collection of endpoints with no duplicates" that keeps the
    order of insertion: a membership set next to a vector. *)
Record endpoint_set : Type := {
  _set : gset N;
  _vec : inet_address_vector_replica_set
}.

Definition endpoint_set_empty : endpoint_set := {| _set := ∅; _vec := [] |}.

(** Insertion keeps the first occurrence of an endpoint only. *)
Definition endpoint_set_push_back (s : endpoint_set) (x : inet_address) : endpoint_set :=
  if decide (x ∈ _set s) then s
  else {| _set := _set s ∪ {[ x ]}; _vec := _vec s ++ [x] |}.

(** [endpoint_set({...})]: construction from an initializer list. *)
Definition endpoint_set_of (init : list N) : endpoint_set :=
  foldl endpoint_set_push_back endpoint_set_empty init.

Definition get_vector (s : endpoint_set) : inet_address_vector_replica_set := _vec s.
Definition endpoint_set_size (s : endpoint_set) : nat := length (_vec s).
Definition endpoint_set_contains (s : endpoint_set) (x : inet_address) : Prop := x ∈ _set s.

(** Modelled from the spec: [topology] is declared outside this file; it
    exposes the current node endpoints and their datacenter and rack. *)
Record topology : Type := {
  _all_endpoints : gset N;
  _dc_rack : gmap N (string * string)
}.

(** Modelled from the spec: [token_metadata] is declared outside this
    file; a versioned snapshot of membership and ring assignment. *)
Record token_metadata : Type := {
  _topology : topology;
  _token_to_endpoint_map : gmap Z N;
  _ring_version : N
}.

(** Number of nodes in a snapshot. *)
Definition node_count (tm : token_metadata) : nat := size (_all_endpoints (_topology tm)).

(** Modelled from the spec: the strategy tags, "{local, simple,
    rack/datacenter-aware, ...}"; the enumeration is declared outside this
    file and only [local] is named here. *)
Inductive replication_strategy_type : Type :=
| simple
| local
| network_topology.

(** The base-class subobject: what the [abstract_replication_strategy]
    constructor is handed by a derived class. *)
Record abstract_replication_strategy : Type := {
  _config_options : replication_strategy_config_options;
  _my_type : replication_strategy_type
}.

(** Modelled from the spec: [effective_replication_map] is declared outside
    this file; it binds a strategy (tag and configuration) to one topology
    snapshot and holds the materialized placement. *)
Record effective_replication_map : Type := {
  _rs : abstract_replication_strategy;
  _tmptr : token_metadata;
  _replication_map : gmap Z (list N)
}.

(** ** The strategy interface *)

(** The virtual member functions of [abstract_replication_strategy] that
    this file overrides.  Reading the broadcast address is the only
    access to process state, so the two endpoint calculations take it as
    an argument.  [validate_options] returns [void]: what it can do is
    throw or touch the object, so it yields the outcome and the object
    after the call. *)
Class replication_strategy (S : Type) : Type := {
  calculate_natural_endpoints :
    S → token → token_metadata → fb_utilities → future endpoint_set;
  validate_options : S → result unit * S;
  recognized_options : S → topology → option (gset string);
  get_replication_factor : S → token_metadata → N;
  get_natural_endpoints :
    S → token → effective_replication_map → fb_utilities → inet_address_vector_replica_set
}.

(** ** locator::local_strategy *)

(** [local_strategy] adds no member to its base class. *)
Record local_strategy : Type := {
  local_base : abstract_replication_strategy
}.

(** [local_strategy::local_strategy(config_options)] *)
Definition local_strategy_new (config_options : replication_strategy_config_options)
  : local_strategy :=
  {| local_base := {| _config_options := config_options; _my_type := local |} |}.

(** [local_strategy::calculate_natural_endpoints(t, tm)] *)
Definition local_strategy_calculate_natural_endpoints
    (self : local_strategy) (t : token) (tm : token_metadata) (fb : fb_utilities)
  : future endpoint_set :=
  make_ready_future (endpoint_set_of [get_broadcast_address fb]).

(** [local_strategy::validate_options()]: the body is empty. *)
Definition local_strategy_validate_options (self : local_strategy)
  : result unit * local_strategy :=
  (returned tt, self).

(** [local_strategy::recognized_options(topology)].  The body is
    [return {};] at return type [std::optional<std::set<sstring>>]: the
    empty braces value-initialize the optional, which is then disengaged
    ([std::nullopt]), not an optional holding an empty set. *)
Definition local_strategy_recognized_options (self : local_strategy) (topo : topology)
  : option (gset string) :=
  None.

(** [local_strategy::get_replication_factor(tm)] *)
Definition local_strategy_get_replication_factor (self : local_strategy) (tm : token_metadata)
  : N :=
  1%N.

(** [local_strategy::get_natural_endpoints(t, erm)] *)
Definition local_strategy_get_natural_endpoints
    (self : local_strategy) (t : token) (erm : effective_replication_map) (fb : fb_utilities)
  : inet_address_vector_replica_set :=
  [get_broadcast_address fb].

#[export] Instance local_strategy_impl : replication_strategy local_strategy := {
  calculate_natural_endpoints := local_strategy_calculate_natural_endpoints;
  validate_options := local_strategy_validate_options;
  recognized_options := local_strategy_recognized_options;
  get_replication_factor := local_strategy_get_replication_factor;
  get_natural_endpoints := local_strategy_get_natural_endpoints
}.

(** ** The class registry *)

(** What a [std::unique_ptr<abstract_replication_strategy>] points to: an
    object together with the overrides of its dynamic type. *)
Record strategy_ptr : Type := {
  dyn_type : Type;
  dyn_impl : replication_strategy dyn_type;
  dyn_obj : dyn_type
}.

Definition make_unique {T : Type} `{replication_strategy T} (obj : T) : strategy_ptr :=
  {| dyn_type := T; dyn_impl := _; dyn_obj := obj |}.

(** [creator_type]: a factory from configuration options. *)
Abbreviation creator_type := (gmap string string → strategy_ptr) (only parsing).

(** Modelled from the spec: utils/class_registrator.hh is only included
    here.  [register(name, factory)] adds one entry to the process-wide
    table; "name collisions at registration are a fatal startup error", the
    [None] outcome.  The factory registered for class [T] forwards its
    argument to the constructor of [T]. *)
Definition class_registrator {T : Type} `{replication_strategy T}
    (ctor : gmap string string → T) (name : string)
    (classes : gmap string (gmap string string → strategy_ptr))
  : option (gmap string (gmap string string → strategy_ptr)) :=
  match classes !! name with
  | Some _ => None
  | None => Some (<[ name := fun config_options => make_unique (ctor config_options) ]> classes)
  end.

(** Modelled from the spec: [create(name, options)] "fails with
    UnknownStrategy(name) if no factory is registered; otherwise
    constructs and returns". *)
Definition create_replication_strategy
    (classes : gmap string (gmap string string → strategy_ptr))
    (name : string) (config_options : replication_strategy_config_options)
  : result strategy_ptr :=
  match classes !! name with
  | Some creator => returned (creator config_options)
  | None => thrown (UnknownStrategy name)
  end.

(** [using registry = class_registrator<abstract_replication_strategy,
    local_strategy, const replication_strategy_config_options&>] *)
Definition registry (name : string) := class_registrator local_strategy_new name.

(** [static registry registrator("org.apache.cassandra.locator.LocalStrategy")] *)
Definition registrator := registry "org.apache.cassandra.locator.LocalStrategy".

(** [static registry registrator_short_name("LocalStrategy")] *)
Definition registrator_short_name := registry "LocalStrategy".

(** Static initialization of this translation unit: the two registrators
    are constructed in the order of their definitions. *)
Definition static_init (classes : gmap string (gmap string string → strategy_ptr))
  : option (gmap string (gmap string string → strategy_ptr)) :=
  classes' ← registrator classes;
  registrator_short_name classes'.


(** ** Invocations inside a process *)




(** ** Configuration validation *)

(** Modelled from the spec: the caller of [recognized_options] is outside
    this file.  The result is "the set of option names the variant
    accepts, or unconstrained (no set)"; it is "used by configuration
    validation to reject unknown keys for strict variants", with
    [UnrecognizedOption]. *)
Definition check_recognized_options (expected : option (gset string))
    (config_options : replication_strategy_config_options) : result unit :=
  match expected with
  | None => returned tt
  | Some names =>
      match filter (fun key => key ∉ names) (map_to_list config_options).*1 with
      | [] => returned tt
      | key :: _ => thrown (UnrecognizedOption key)
      end
  end.

(** Modelled from the spec: validation of an instance against the options
    it was built from: [validate_options], then the check of the option
    names against [recognized_options]. *)
Definition validate_strategy_options {S : Type} `{replication_strategy S}
    (strategy : S) (config_options : replication_strategy_config_options)
    (topo : topology) : result unit :=
  _ ← (validate_options strategy).1;
  check_recognized_options (recognized_options strategy topo) config_options.

(** Modelled from the spec: "a configuration system passes a strategy name
    plus an option mapping to the registry to obtain a strategy instance";
    configuration errors surface before the instance is used. *)
Definition validate_replication_strategy
    (classes : gmap string (gmap string string → strategy_ptr))
    (strategy_name : string) (config_options : replication_strategy_config_options)
    (topo : topology) : result unit :=
  p ← create_replication_strategy classes strategy_name config_options;
  @validate_strategy_options (dyn_type p) (dyn_impl p) (dyn_obj p) config_options topo.

(** ** Sample inputs *)

(** A snapshot of a cluster with no node at all. *)
Definition empty_token_metadata : token_metadata :=
  {| _topology := {| _all_endpoints := ∅; _dc_rack := ∅ |};
     _token_to_endpoint_map := ∅;
     _ring_version := 0%N |}.

(** A snapshot of a two-node cluster, nodes 7 and 8 in one rack. *)
Definition two_node_topology : topology :=
  {| _all_endpoints := {[ 7%N; 8%N ]};
     _dc_rack := {[ 7%N := ("dc1", "rack1"); 8%N := ("dc1", "rack1") ]} |}.

Definition two_node_token_metadata : token_metadata :=
  {| _topology := two_node_topology;
     _token_to_endpoint_map := {[ 0%Z := 7%N; 100%Z := 8%N ]};
     _ring_version := 3%N |}.

(** The class table of a process whose static initialization has run for
    this translation unit only. *)
Definition classes_after_init : gmap string (gmap string string → strategy_ptr) :=
  default ∅ (static_init ∅).

(** An effective replication map bound to the two-node snapshot. *)
Definition two_node_effective_map : effective_replication_map :=
  {| _rs := local_base (local_strategy_new ∅);
     _tmptr := two_node_token_metadata;
     _replication_map := ∅ |}.



(** A keyspace definition that hands an option to the local strategy. *)
Definition options_with_replication_factor : replication_strategy_config_options :=
  {[ "replication_factor" := "3" ]}.

(** * Properties *)

(** ** Shared facts *)

Lemma endpoint_set_of_singleton (a : inet_address) :
  endpoint_set_of [a] = {| _set := {[ a ]}; _vec := [a] |}.
Proof.
  unfold endpoint_set_of, endpoint_set_push_back; simpl.
  rewrite decide_False by apply not_elem_of_empty.
  f_equal. apply (left_id_L ∅ (∪)).
Qed.

Lemma local_calculate_ready (self : local_strategy) (t : token)
    (tm : token_metadata) (fb : fb_utilities) :
  local_strategy_calculate_natural_endpoints self t tm fb
  = ready_future {| _set := {[ get_broadcast_address fb ]};
                    _vec := [get_broadcast_address fb] |}.
Proof.
  unfold local_strategy_calculate_natural_endpoints, make_ready_future.
  by rewrite endpoint_set_of_singleton.
Qed.

Lemma static_init_fresh (classes : gmap string (gmap string string → strategy_ptr)) :
  classes !! "org.apache.cassandra.locator.LocalStrategy" = None →
  classes !! "LocalStrategy" = None →
  static_init classes
  = Some (<[ "LocalStrategy" := fun o => make_unique (local_strategy_new o) ]>
          (<[ "org.apache.cassandra.locator.LocalStrategy" :=
                fun o => make_unique (local_strategy_new o) ]> classes)).
Proof.
  intros Hq Hs.
  unfold static_init, registrator, registrator_short_name, registry, class_registrator.
  rewrite Hq; simpl.
  rewrite lookup_insert_ne by done.
  by rewrite Hs.
Qed.

(** Rewrites a calculation into the future it returns. *)
Ltac local_calculate := rewrite !local_calculate_ready; simpl.

(** ** Endpoint calculation *)

(** C1: for every token and every topology snapshot, the local strategy's
    [calculate_natural_endpoints] returns an endpoint set containing exactly
    one endpoint, the broadcast address of the invoking node. *)
Theorem local_calculate_natural_endpoints_own_address
    (self : local_strategy) (t : token) (tm : token_metadata) (fb : fb_utilities) :
  ∃ endpoints : endpoint_set,
    local_strategy_calculate_natural_endpoints self t tm fb = ready_future endpoints
    ∧ get_vector endpoints = [get_broadcast_address fb]
    ∧ endpoint_set_size endpoints = 1
    ∧ ∀ e, endpoint_set_contains endpoints e ↔ e = get_broadcast_address fb.
Proof.
  eexists. split; [apply local_calculate_ready|].
  repeat split; unfold endpoint_set_contains; simpl.
  - by intros ->%elem_of_singleton.
  - intros ->. by apply elem_of_singleton.
Qed.

(** The scenario of a two-node cluster: node 7 computes placement for an
    arbitrary token and finds itself only, node 8 notwithstanding. *)
Example two_node_scenario :
  get (local_strategy_calculate_natural_endpoints (local_strategy_new ∅) 42%Z
         two_node_token_metadata {| _broadcast_address := 7%N |})
  = Some (returned {| _set := {[ 7%N ]}; _vec := [7%N] |})
  ∧ local_strategy_get_natural_endpoints (local_strategy_new ∅) 42%Z
      two_node_effective_map {| _broadcast_address := 7%N |} = [7%N]
  ∧ node_count two_node_token_metadata = 2.
Proof. by local_calculate. Qed.

(** C2: for every topology snapshot, the local strategy's
    [get_replication_factor] returns the constant 1. *)
Theorem local_get_replication_factor_one (self : local_strategy) (tm : token_metadata) :
  local_strategy_get_replication_factor self tm = 1%N.
Proof. reflexivity. Qed.

(** C7: the local strategy ignores the token: any two tokens give the same
    result, for [calculate_natural_endpoints] against a fixed snapshot and
    for [get_natural_endpoints] against a fixed effective replication map. *)
Theorem local_endpoints_ignore_token
    (self : local_strategy) (t1 t2 : token) (tm : token_metadata)
    (erm : effective_replication_map) (fb : fb_utilities) :
  local_strategy_calculate_natural_endpoints self t1 tm fb
  = local_strategy_calculate_natural_endpoints self t2 tm fb
  ∧ local_strategy_get_natural_endpoints self t1 erm fb
    = local_strategy_get_natural_endpoints self t2 erm fb.
Proof. split; [by local_calculate | reflexivity]. Qed.

(** C9: for every token and every snapshot, the future returned by
    [calculate_natural_endpoints] is already resolved with a value: it is
    available, not failed, and suspended on no topology barrier. *)
Theorem local_calculate_natural_endpoints_ready
    (self : local_strategy) (t : token) (tm : token_metadata) (fb : fb_utilities) :
  available (local_strategy_calculate_natural_endpoints self t tm fb) = true
  ∧ failed (local_strategy_calculate_natural_endpoints self t tm fb) = false
  ∧ awaited_barrier (local_strategy_calculate_natural_endpoints self t tm fb) = None.
Proof. by local_calculate. Qed.

(** C10: the two lookup paths agree: the endpoints the asynchronous
    [calculate_natural_endpoints] resolves to are, as a vector, the result
    of the synchronous [get_natural_endpoints], and both are the singleton
    of the broadcast address. *)
Theorem local_lookup_paths_agree
    (self : local_strategy) (t : token) (tm : token_metadata)
    (erm : effective_replication_map) (fb : fb_utilities) :
  ∃ endpoints : endpoint_set,
    get (local_strategy_calculate_natural_endpoints self t tm fb) = Some (returned endpoints)
    ∧ get_vector endpoints = local_strategy_get_natural_endpoints self t erm fb
    ∧ local_strategy_get_natural_endpoints self t erm fb = [get_broadcast_address fb].
Proof. local_calculate. by eexists. Qed.

(** C6: the local strategy is exempt from [EmptyTopology]: against a
    snapshot with zero nodes the calculation still resolves to the
    non-empty singleton of the node's own address, and the snapshot has no
    influence on the result at all. *)
Theorem local_calculate_on_empty_topology
    (self : local_strategy) (t : token) (tm : token_metadata) (fb : fb_utilities) :
  node_count tm = 0 →
  (∃ endpoints : endpoint_set,
     get (local_strategy_calculate_natural_endpoints self t tm fb) = Some (returned endpoints)
     ∧ get_vector endpoints = [get_broadcast_address fb]
     ∧ endpoint_set_size endpoints ≠ 0)
  ∧ get (local_strategy_calculate_natural_endpoints self t tm fb) ≠ Some (thrown EmptyTopology)
  ∧ ∀ tm' : token_metadata,
      local_strategy_calculate_natural_endpoints self t tm' fb
      = local_strategy_calculate_natural_endpoints self t tm fb.
Proof.
  intros _. local_calculate. split_and!; [by eexists | done | by intros; local_calculate].
Qed.

Lemma local_calculate_on_empty_topology_witness :
  node_count empty_token_metadata = 0
  ∧ get (local_strategy_calculate_natural_endpoints
           (local_strategy_new ∅) 42%Z empty_token_metadata {| _broadcast_address := 7%N |})
    ≠ Some (thrown EmptyTopology).
Proof.
  split; [reflexivity|].
  apply (local_calculate_on_empty_topology
           (local_strategy_new ∅) 42%Z empty_token_metadata {| _broadcast_address := 7%N |}).
  reflexivity.
Defined.

(** ** Configuration *)

(** C4: for every local strategy instance, whatever options it was built
    from, [validate_options] returns normally and leaves the instance as
    it was; in particular it throws no [InvalidConfiguration]. *)
Theorem local_validate_options_noop (self : local_strategy) :
  local_strategy_validate_options self = (returned tt, self)
  ∧ (∀ reason, (local_strategy_validate_options self).1 ≠ thrown (InvalidConfiguration reason))
  ∧ ∀ config_options : replication_strategy_config_options,
      local_strategy_validate_options (local_strategy_new config_options)
      = (returned tt, local_strategy_new config_options).
Proof. done. Qed.

(** C3: [recognized_options] of the local strategy returns no set at all
    (a disengaged optional), not the empty set of names.  Validation
    therefore leaves the option names unconstrained: a keyspace definition
    that hands [replication_factor] to [LocalStrategy] is accepted, where
    the empty set would have rejected it with [UnrecognizedOption]. *)
Theorem local_recognized_options_disengaged :
  (∀ (self : local_strategy) (topo : topology),
     local_strategy_recognized_options self topo = None)
  ∧ local_strategy_recognized_options
      (local_strategy_new options_with_replication_factor) two_node_topology ≠ Some ∅
  ∧ validate_replication_strategy classes_after_init "LocalStrategy"
      options_with_replication_factor two_node_topology = returned tt
  ∧ check_recognized_options (Some ∅) options_with_replication_factor
    = thrown (UnrecognizedOption "replication_factor").
Proof. split_and!; [done | done | by vm_compute | by vm_compute]. Qed.

(** ** Determinism *)



(** ** Registration *)

(** C8: static initialization registers the local strategy under the
    qualified name and under the short name; both names map to the same
    factory, which builds a [local_strategy] from the configuration
    options; no other entry of the table changes. *)
Theorem local_strategy_registered_under_both_names
    (classes : gmap string (gmap string string → strategy_ptr)) :
  classes !! "org.apache.cassandra.locator.LocalStrategy" = None →
  classes !! "LocalStrategy" = None →
  ∃ classes' creator,
    static_init classes = Some classes'
    ∧ classes' !! "org.apache.cassandra.locator.LocalStrategy" = Some creator
    ∧ classes' !! "LocalStrategy" = Some creator
    ∧ (∀ config_options : replication_strategy_config_options,
         creator config_options = make_unique (local_strategy_new config_options)
         ∧ create_replication_strategy classes'
             "org.apache.cassandra.locator.LocalStrategy" config_options
           = returned (make_unique (local_strategy_new config_options))
         ∧ create_replication_strategy classes' "LocalStrategy" config_options
           = returned (make_unique (local_strategy_new config_options)))
    ∧ ∀ name : string,
        name ≠ "org.apache.cassandra.locator.LocalStrategy" →
        name ≠ "LocalStrategy" →
        classes' !! name = classes !! name.
Proof.
  intros Hq Hs. do 2 eexists.
  split; [by apply static_init_fresh|].
  unfold create_replication_strategy.
  rewrite lookup_insert_ne by done. rewrite !lookup_insert_eq.
  split_and!; try done.
  intros name Hnq Hns. by rewrite !lookup_insert_ne.
Qed.

Lemma local_strategy_registered_under_both_names_witness :
  ∃ classes' creator,
    static_init ∅ = Some classes'
    ∧ classes' !! "org.apache.cassandra.locator.LocalStrategy" = Some creator
    ∧ classes' !! "LocalStrategy" = Some creator
    ∧ (∀ config_options : replication_strategy_config_options,
         creator config_options = make_unique (local_strategy_new config_options)
         ∧ create_replication_strategy classes'
             "org.apache.cassandra.locator.LocalStrategy" config_options
           = returned (make_unique (local_strategy_new config_options))
         ∧ create_replication_strategy classes' "LocalStrategy" config_options
           = returned (make_unique (local_strategy_new config_options)))
    ∧ ∀ name : string,
        name ≠ "org.apache.cassandra.locator.LocalStrategy" →
        name ≠ "LocalStrategy" →
        classes' !! name = (∅ : gmap string (gmap string string → strategy_ptr)) !! name.
Proof.
  apply (local_strategy_registered_under_both_names ∅); reflexivity.
Defined.

(** ** Further properties of the local strategy *)

(** X1: the replication factor the strategy reports is the number of
    replicas it places: for every token, snapshot and effective
    replication map, the endpoint set [calculate_natural_endpoints]
    resolves to and the vector [get_natural_endpoints] returns both have
    [get_replication_factor] elements. *)
Theorem local_replication_factor_counts_endpoints
    (self : local_strategy) (t : token) (tm : token_metadata)
    (erm : effective_replication_map) (fb : fb_utilities) :
  ∃ endpoints : endpoint_set,
    get (local_strategy_calculate_natural_endpoints self t tm fb) = Some (returned endpoints)
    ∧ N.of_nat (endpoint_set_size endpoints) = local_strategy_get_replication_factor self tm
    ∧ N.of_nat (length (local_strategy_get_natural_endpoints self t erm fb))
      = local_strategy_get_replication_factor self tm.
Proof. local_calculate. by eexists. Qed.

(** X2: the configuration options are stored and never consulted: two
    instances built from any two option mappings agree on every member
    function, namely the endpoints of both lookup paths (also against
    different effective replication maps), the replication factor, the
    recognized options and the outcome of validation. *)
Theorem local_strategy_ignores_configuration
    (o1 o2 : replication_strategy_config_options) (t : token) (tm : token_metadata)
    (erm1 erm2 : effective_replication_map) (topo : topology) (fb : fb_utilities) :
  local_strategy_calculate_natural_endpoints (local_strategy_new o1) t tm fb
  = local_strategy_calculate_natural_endpoints (local_strategy_new o2) t tm fb
  ∧ local_strategy_get_natural_endpoints (local_strategy_new o1) t erm1 fb
    = local_strategy_get_natural_endpoints (local_strategy_new o2) t erm2 fb
  ∧ local_strategy_get_replication_factor (local_strategy_new o1) tm
    = local_strategy_get_replication_factor (local_strategy_new o2) tm
  ∧ local_strategy_recognized_options (local_strategy_new o1) topo
    = local_strategy_recognized_options (local_strategy_new o2) topo
  ∧ (local_strategy_validate_options (local_strategy_new o1)).1
    = (local_strategy_validate_options (local_strategy_new o2)).1.
Proof. split_and!; [by local_calculate | done..]. Qed.

(** X3: nodes with different broadcast addresses place the same token on
    different replicas: their [calculate_natural_endpoints] futures differ
    and no endpoint returned by [get_natural_endpoints] on one node is
    returned on the other. *)
Theorem local_endpoints_of_distinct_nodes_disjoint
    (self : local_strategy) (t : token) (tm : token_metadata)
    (erm : effective_replication_map) (fb1 fb2 : fb_utilities) :
  get_broadcast_address fb1 ≠ get_broadcast_address fb2 →
  local_strategy_calculate_natural_endpoints self t tm fb1
  ≠ local_strategy_calculate_natural_endpoints self t tm fb2
  ∧ ∀ e : inet_address,
      e ∈ local_strategy_get_natural_endpoints self t erm fb1 →
      e ∉ local_strategy_get_natural_endpoints self t erm fb2.
Proof.
  intros Hne. split.
  - local_calculate. intros Heq. by injection Heq.
  - unfold local_strategy_get_natural_endpoints.
    intros e ->%list_elem_of_singleton Hin%list_elem_of_singleton. done.
Qed.

Lemma local_endpoints_of_distinct_nodes_disjoint_witness :
  local_strategy_calculate_natural_endpoints (local_strategy_new ∅) 42%Z
    two_node_token_metadata {| _broadcast_address := 7%N |}
  ≠ local_strategy_calculate_natural_endpoints (local_strategy_new ∅) 42%Z
      two_node_token_metadata {| _broadcast_address := 8%N |}
  ∧ ∀ e : inet_address,
      e ∈ local_strategy_get_natural_endpoints (local_strategy_new ∅) 42%Z
            two_node_effective_map {| _broadcast_address := 7%N |} →
      e ∉ local_strategy_get_natural_endpoints (local_strategy_new ∅) 42%Z
            two_node_effective_map {| _broadcast_address := 8%N |}.
Proof.
  apply (local_endpoints_of_distinct_nodes_disjoint (local_strategy_new ∅) 42%Z
           two_node_token_metadata two_node_effective_map
           {| _broadcast_address := 7%N |} {| _broadcast_address := 8%N |}).
  simpl. discriminate.
Defined.

(** X4: membership is never checked: when the node's own address is not
    among the endpoints of the snapshot, [calculate_natural_endpoints]
    still resolves, and every endpoint it returns is outside the
    snapshot. *)
Theorem local_endpoint_outside_topology
    (self : local_strategy) (t : token) (tm : token_metadata) (fb : fb_utilities) :
  get_broadcast_address fb ∉ _all_endpoints (_topology tm) →
  ∃ endpoints : endpoint_set,
    get (local_strategy_calculate_natural_endpoints self t tm fb) = Some (returned endpoints)
    ∧ endpoint_set_size endpoints = 1
    ∧ ∀ e : inet_address,
        endpoint_set_contains endpoints e → e ∉ _all_endpoints (_topology tm).
Proof.
  intros Hout. local_calculate. eexists. split_and!; [done..|].
  unfold endpoint_set_contains; simpl. by intros e ->%elem_of_singleton.
Qed.

Lemma local_endpoint_outside_topology_witness :
  ∃ endpoints : endpoint_set,
    get (local_strategy_calculate_natural_endpoints (local_strategy_new ∅) 42%Z
           two_node_token_metadata {| _broadcast_address := 9%N |})
    = Some (returned endpoints)
    ∧ endpoint_set_size endpoints = 1
    ∧ ∀ e : inet_address,
        endpoint_set_contains endpoints e →
        e ∉ _all_endpoints (_topology two_node_token_metadata).
Proof.
  apply (local_endpoint_outside_topology (local_strategy_new ∅) 42%Z
           two_node_token_metadata {| _broadcast_address := 9%N |}).
  intros Hin. vm_compute in Hin. discriminate.
Defined.
